(** * RealtimeVisualizer: a shallow embedding of
      [server/src/realtime_visualizer.py]

    The Python class keeps six persistent line objects and two axes, pulls a
    sample window from a caller-supplied accessor on every timer tick and
    redraws.  The embedding follows the source method by method:

    - numbers are exact rationals ([Q]), so the rounding of floating-point
      arithmetic is not modelled; integers ([len], [range], [window_size])
      are [Z];
    - Python list objects live in a store ([Heap]) and are named by their
      location, so that passing a list and copying it can be told apart;
    - methods are computations in a state-and-exception monad [M] over the
      [World] (store, console, pyplot's figure registry, and [self]);
    - the charting library is modelled at the interface the source uses:
      [set_data], [set_xlim] and [set_ylim] record their arguments,
      [event_source.stop()] clears the timer's running flag,
      [plt.close('all')] closes the figures, and [plt.show()] is an
      arbitrary computation supplied by the environment. *)

From Stdlib Require Import QArith Lqa.
From stdpp Require Import gmap strings list fin_maps.

Local Open Scope string_scope.
Local Open Scope Z_scope.
Local Open Scope list_scope.

(** ** Python values *)

(** Exceptions.  [KeyboardInterrupt] and [SystemExit] derive from
    [BaseException] only; the others derive from [Exception]. *)
Inductive exn : Type :=
  | KeyError (key : string)
  | TypeError (msg : string)
  | ValueError (msg : string)
  | RuntimeError (msg : string)
  | KeyboardInterrupt
  | SystemExit.

(** [isinstance(e, Exception)] *)
Definition is_Exception (e : exn) : bool :=
  match e with
  | KeyboardInterrupt | SystemExit => false
  | _ => true
  end.

(** [str(e)]: a [KeyError] prints the [repr] of its key. *)
Definition exn_str (e : exn) : string :=
  match e with
  | KeyError k => "'" +:+ k +:+ "'"
  | TypeError m | ValueError m | RuntimeError m => m
  | KeyboardInterrupt | SystemExit => ""
  end.

(** Locations of list objects, and the store.  Allocation appends, so a
    location is an index into the store. *)
Definition loc := nat.
Definition Heap := list (list Q).

(** What the accessor may return: [None], or a dict from channel names to
    list objects. *)
Inductive PyObj : Type :=
  | PyNone
  | PyDict (d : gmap string loc).

(** The accessor is external and stateful: it may grow or rewrite its own
    buffers before it answers, and it may raise. *)
Definition Callback := Heap -> Heap * (exn + PyObj).

(** ** The chart objects *)

Record Line2D := mkLine { xdata : list Z; ydata : loc }.
Record Axes := mkAxes { xlim : Z * Z; ylim : Q * Q }.
Record Timer := mkTimer { interval : Z; running : bool }.
Record Animation := mkAnimation { event_source : Timer }.

Record Visualizer := mkVis {
  window_size : Z;
  update_interval : Z;
  data_callback : option Callback;
  animation : option Animation;
  line_ax : Line2D;
  line_ay : Line2D;
  line_az : Line2D;
  line_gx : Line2D;
  line_gy : Line2D;
  line_gz : Line2D;
  ax1 : Axes;
  ax2 : Axes
}.

Record World := mkWorld {
  heap : Heap;
  stdout : list string;
  figures_open : bool;
  self : Visualizer
}.

Definition LineTuple : Type :=
  Line2D * Line2D * Line2D * Line2D * Line2D * Line2D.

(** ** The monad of methods *)

Definition M (A : Type) : Type := World -> World * (exn + A).

Definition ret {A} (a : A) : M A := fun w => (w, inr a).

Definition bind {A B} (m : M A) (k : A -> M B) : M B :=
  fun w =>
    match m w with
    | (w1, inl e) => (w1, inl e)
    | (w1, inr a) => k a w1
    end.

Definition raise {A} (e : exn) : M A := fun w => (w, inl e).

Definition gets {A} (f : World -> A) : M A := fun w => (w, inr (f w)).

Definition modify (f : World -> World) : M unit := fun w => (f w, inr tt).

Notation "x <- c ;; k" := (bind c (fun x => k))
  (at level 100, c at next level, right associativity).
Notation "c ;;; k" := (bind c (fun _ => k))
  (at level 100, right associativity).

(** [try: body  except Exception as e: handler(e)] *)
Definition try_except {A} (body : M A) (handler : exn -> M A) : M A :=
  fun w =>
    match body w with
    | (w1, inl e) => if is_Exception e then handler e w1 else (w1, inl e)
    | (w1, inr a) => (w1, inr a)
    end.

(** [try: body  finally: cleanup].  The cleanup runs on every exit of the
    body; an exception of the cleanup replaces the body's outcome. *)
Definition try_finally {A} (body : M A) (cleanup : M unit) : M A :=
  fun w =>
    match body w with
    | (w1, r) =>
        match cleanup w1 with
        | (w2, inl e) => (w2, inl e)
        | (w2, inr _) => (w2, r)
        end
    end.

(** ** World updates *)

Definition set_heap (h : Heap) (w : World) : World :=
  mkWorld h (stdout w) (figures_open w) (self w).
Definition set_stdout (o : list string) (w : World) : World :=
  mkWorld (heap w) o (figures_open w) (self w).
Definition set_figures_open (b : bool) (w : World) : World :=
  mkWorld (heap w) (stdout w) b (self w).
Definition set_self (v : Visualizer) (w : World) : World :=
  mkWorld (heap w) (stdout w) (figures_open w) v.

Definition with_data_callback (c : option Callback) (v : Visualizer) :=
  mkVis (window_size v) (update_interval v) c (animation v)
        (line_ax v) (line_ay v) (line_az v) (line_gx v) (line_gy v) (line_gz v)
        (ax1 v) (ax2 v).
Definition with_animation (a : option Animation) (v : Visualizer) :=
  mkVis (window_size v) (update_interval v) (data_callback v) a
        (line_ax v) (line_ay v) (line_az v) (line_gx v) (line_gy v) (line_gz v)
        (ax1 v) (ax2 v).
Definition with_line_ax (l : Line2D) (v : Visualizer) :=
  mkVis (window_size v) (update_interval v) (data_callback v) (animation v)
        l (line_ay v) (line_az v) (line_gx v) (line_gy v) (line_gz v)
        (ax1 v) (ax2 v).
Definition with_line_ay (l : Line2D) (v : Visualizer) :=
  mkVis (window_size v) (update_interval v) (data_callback v) (animation v)
        (line_ax v) l (line_az v) (line_gx v) (line_gy v) (line_gz v)
        (ax1 v) (ax2 v).
Definition with_line_az (l : Line2D) (v : Visualizer) :=
  mkVis (window_size v) (update_interval v) (data_callback v) (animation v)
        (line_ax v) (line_ay v) l (line_gx v) (line_gy v) (line_gz v)
        (ax1 v) (ax2 v).
Definition with_line_gx (l : Line2D) (v : Visualizer) :=
  mkVis (window_size v) (update_interval v) (data_callback v) (animation v)
        (line_ax v) (line_ay v) (line_az v) l (line_gy v) (line_gz v)
        (ax1 v) (ax2 v).
Definition with_line_gy (l : Line2D) (v : Visualizer) :=
  mkVis (window_size v) (update_interval v) (data_callback v) (animation v)
        (line_ax v) (line_ay v) (line_az v) (line_gx v) l (line_gz v)
        (ax1 v) (ax2 v).
Definition with_line_gz (l : Line2D) (v : Visualizer) :=
  mkVis (window_size v) (update_interval v) (data_callback v) (animation v)
        (line_ax v) (line_ay v) (line_az v) (line_gx v) (line_gy v) l
        (ax1 v) (ax2 v).
Definition with_ax1 (a : Axes) (v : Visualizer) :=
  mkVis (window_size v) (update_interval v) (data_callback v) (animation v)
        (line_ax v) (line_ay v) (line_az v) (line_gx v) (line_gy v) (line_gz v)
        a (ax2 v).
Definition with_ax2 (a : Axes) (v : Visualizer) :=
  mkVis (window_size v) (update_interval v) (data_callback v) (animation v)
        (line_ax v) (line_ay v) (line_az v) (line_gx v) (line_gy v) (line_gz v)
        (ax1 v) a.

Definition modify_self (f : Visualizer -> Visualizer) : M unit :=
  modify (fun w => set_self (f (self w)) w).

(** ** Python built-ins used by the source *)

(** [print(s)] *)
Definition print (s : string) : M unit :=
  modify (fun w => set_stdout (stdout w ++ [s]) w).

(** Allocation of a new list object. *)
Definition alloc (l : list Q) : M loc :=
  fun w => (set_heap (heap w ++ [l]) w, inr (length (heap w))).

(** Reading a list object; a location that holds no list of numbers is an
    object the list operations reject. *)
Definition deref (what : string) (r : loc) : M (list Q) :=
  fun w =>
    match heap w !! r with
    | Some l => (w, inr l)
    | None => (w, inl (TypeError what))
    end.

(** [not data] *)
Definition py_not (data : PyObj) : bool :=
  match data with
  | PyNone => true
  | PyDict d => bool_decide (d = ∅)
  end.

(** [data[key]] *)
Definition py_getitem (data : PyObj) (key : string) : M loc :=
  match data with
  | PyNone => raise (TypeError "'NoneType' object is not subscriptable")
  | PyDict d =>
      match d !! key with
      | Some r => ret r
      | None => raise (KeyError key)
      end
  end.

(** [len(r)] *)
Definition py_len (r : loc) : M Z :=
  l <- deref "object has no len()" r ;;
  ret (Z.of_nat (length l)).

(** [list(range(n))] *)
Definition py_range (n : Z) : list Z :=
  map Z.of_nat (seq 0 (Z.to_nat n)).

(** The slice [l[start:]] on values: a negative start counts from the end,
    and the start is clipped to the list. *)
Definition slice_from (l : list Q) (start : Z) : list Q :=
  let len := Z.of_nat (length l) in
  let s := if start <? 0 then Z.max 0 (len + start) else Z.min start len in
  drop (Z.to_nat s) l.

(** [r[start:]]: a new list object. *)
Definition py_slice_from (r : loc) (start : Z) : M loc :=
  l <- deref "object is not subscriptable" r ;;
  alloc (slice_from l start).

(** [a + b] on list objects: a new list object. *)
Definition py_add (a b : loc) : M loc :=
  la <- deref "unsupported operand type(s) for +" a ;;
  lb <- deref "unsupported operand type(s) for +" b ;;
  alloc (la ++ lb).

(** [x < y] on numbers *)
Definition Qltb (x y : Q) : bool :=
  (Qnum x * Zpos (Qden y) <? Qnum y * Zpos (Qden x))%Z.

(** [min] and [max] on values.  Python keeps the first item and replaces it
    by a later one only when that one compares strictly smaller (larger). *)
Definition lower (m y : Q) : Q := if Qltb y m then y else m.
Definition upper (m y : Q) : Q := if Qltb m y then y else m.

Definition min_list (l : list Q) : option Q :=
  match l with
  | [] => None
  | x :: t => Some (fold_left lower t x)
  end.

Definition max_list (l : list Q) : option Q :=
  match l with
  | [] => None
  | x :: t => Some (fold_left upper t x)
  end.

(** [min(r)], [max(r)] *)
Definition py_min (r : loc) : M Q :=
  l <- deref "object is not iterable" r ;;
  match min_list l with
  | Some m => ret m
  | None => raise (ValueError "min() arg is an empty sequence")
  end.

Definition py_max (r : loc) : M Q :=
  l <- deref "object is not iterable" r ;;
  match max_list l with
  | Some m => ret m
  | None => raise (ValueError "max() arg is an empty sequence")
  end.

(** ** The charting library, at the interface the source uses

    The library is not part of the source.  Its calls are modelled by the
    effect the source relies on, and they do not raise. *)

(** [line.set_data(x, y)]: the line's coordinates are replaced by the
    objects it is given. *)
Definition set_data (x : list Z) (y : loc) (l : Line2D) : Line2D := mkLine x y.

(** [ax.set_xlim(lo, hi)], [ax.set_ylim(lo, hi)] *)
Definition set_xlim (lo hi : Z) (a : Axes) : Axes := mkAxes (lo, hi) (ylim a).
Definition set_ylim (lo hi : Q) (a : Axes) : Axes := mkAxes (xlim a) (lo, hi).

(** [timer.stop()] *)
Definition timer_stop (t : Timer) : Timer := mkTimer (interval t) false.

(** [FuncAnimation(fig, func, interval=...)]: the timer is created with the
    given interval; the event loop starts it at the first draw. *)
Definition FuncAnimation (itv : Z) : Animation :=
  mkAnimation (mkTimer itv false).

(** [plt.close('all')] *)
Definition plt_close_all : M unit := modify (set_figures_open false).

(** ** The methods of [RealtimeVisualizer] *)

(** [__init__] with [setup_plot]: six lines over fresh empty lists, two axes
    with the library's initial view, no accessor, no animation.  The styling
    calls (titles, labels, legends) have no state in this model. *)
Definition RealtimeVisualizer (window_size update_interval : Z) (h : Heap)
  : World :=
  let n := length h in
  mkWorld (h ++ [[]; []; []; []; []; []]) [] true
    (mkVis window_size update_interval None None
       (mkLine [] n) (mkLine [] (n + 1)%nat) (mkLine [] (n + 2)%nat)
       (mkLine [] (n + 3)%nat) (mkLine [] (n + 4)%nat) (mkLine [] (n + 5)%nat)
       (mkAxes (0, 1) (0%Q, 1%Q)) (mkAxes (0, 1) (0%Q, 1%Q))).

(** The tuple every exit of [animate] returns. *)
Definition current_lines : M LineTuple :=
  gets (fun w =>
          let v := self w in
          (line_ax v, line_ay v, line_az v, line_gx v, line_gy v, line_gz v)).

(** [self.data_callback()] *)
Definition call_callback (cb : Callback) : M PyObj :=
  fun w => let (h, r) := cb (heap w) in (set_heap h w, r).

(** The windowed coordinates chosen by a tick: the local variables
    [x_data], [acc_x], [acc_y], [acc_z], [gy_x], [gy_y], [gy_z]. *)
Record Selection := mkSel {
  x_data : list Z;
  acc_x : loc; acc_y : loc; acc_z : loc;
  gy_x : loc; gy_y : loc; gy_z : loc
}.

(** Lines 75-93: "Get the most recent data points". *)
Definition select_window (data : PyObj) (data_length : Z) : M Selection :=
  W <- gets (fun w => window_size (self w)) ;;
  if data_length >? W then
    let start_idx := data_length - W in
    let x_data := py_range W in
    ax <- py_getitem data "Ax" ;;
    acc_x <- py_slice_from ax start_idx ;;
    ay <- py_getitem data "Ay" ;;
    acc_y <- py_slice_from ay start_idx ;;
    az <- py_getitem data "Az" ;;
    acc_z <- py_slice_from az start_idx ;;
    gx <- py_getitem data "Gx" ;;
    gy_x <- py_slice_from gx start_idx ;;
    gy <- py_getitem data "Gy" ;;
    gy_y <- py_slice_from gy start_idx ;;
    gz <- py_getitem data "Gz" ;;
    gy_z <- py_slice_from gz start_idx ;;
    ret (mkSel x_data acc_x acc_y acc_z gy_x gy_y gy_z)
  else
    let x_data := py_range data_length in
    acc_x <- py_getitem data "Ax" ;;
    acc_y <- py_getitem data "Ay" ;;
    acc_z <- py_getitem data "Az" ;;
    gy_x <- py_getitem data "Gx" ;;
    gy_y <- py_getitem data "Gy" ;;
    gy_z <- py_getitem data "Gz" ;;
    ret (mkSel x_data acc_x acc_y acc_z gy_x gy_y gy_z).

(** Lines 96-101: "Update line data". *)
Definition update_line_data (s : Selection) : M unit :=
  modify_self (fun v => with_line_ax (set_data (x_data s) (acc_x s) (line_ax v)) v) ;;;
  modify_self (fun v => with_line_ay (set_data (x_data s) (acc_y s) (line_ay v)) v) ;;;
  modify_self (fun v => with_line_az (set_data (x_data s) (acc_z s) (line_az v)) v) ;;;
  modify_self (fun v => with_line_gx (set_data (x_data s) (gy_x s) (line_gx v)) v) ;;;
  modify_self (fun v => with_line_gy (set_data (x_data s) (gy_y s) (line_gy v)) v) ;;;
  modify_self (fun v => with_line_gz (set_data (x_data s) (gy_z s) (line_gz v)) v).

(** Lines 104-115: "Auto-scale y-axes based on current data". *)
Definition autoscale_y (s : Selection) : M unit :=
  n <- py_len (acc_x s) ;;
  if n >? 0 then
    t <- py_add (acc_x s) (acc_y s) ;;
    acc_data <- py_add t (acc_z s) ;;
    acc_min <- py_min acc_data ;;
    acc_max <- py_max acc_data ;;
    let acc_range := (acc_max - acc_min)%Q in
    (if Qltb 0 acc_range then
       modify_self (fun v =>
         with_ax1 (set_ylim (acc_min - (1 # 10) * acc_range)
                            (acc_max + (1 # 10) * acc_range)
                            (ax1 v)) v)
     else ret tt) ;;;
    t <- py_add (gy_x s) (gy_y s) ;;
    gy_data <- py_add t (gy_z s) ;;
    gy_min <- py_min gy_data ;;
    gy_max <- py_max gy_data ;;
    let gy_range := (gy_max - gy_min)%Q in
    (if Qltb 0 gy_range then
       modify_self (fun v =>
         with_ax2 (set_ylim (gy_min - (1 # 10) * gy_range)
                            (gy_max + (1 # 10) * gy_range)
                            (ax2 v)) v)
     else ret tt)
  else ret tt.

(** Lines 118-123: "Update x-axis to show current window". *)
Definition update_xlim (data_length : Z) : M unit :=
  W <- gets (fun w => window_size (self w)) ;;
  if data_length >? W then
    modify_self (fun v => with_ax1 (set_xlim 0 W (ax1 v)) v) ;;;
    modify_self (fun v => with_ax2 (set_xlim 0 W (ax2 v)) v)
  else
    modify_self (fun v => with_ax1 (set_xlim 0 (Z.max 50 data_length) (ax1 v)) v) ;;;
    modify_self (fun v => with_ax2 (set_xlim 0 (Z.max 50 data_length) (ax2 v)) v).

(** Lines 68-123: what a tick does with the accessor's answer.  It yields
    [Some t] when it returns [t] early and [None] when it runs to its end. *)
Definition redraw (data : PyObj) : M (option LineTuple) :=
  nodata <- (if py_not data then ret true
             else (f <- py_getitem data "frame" ;;
                   n <- py_len f ;;
                   ret (n =? 0))) ;;
  if (nodata : bool) then
    t <- current_lines ;;
    ret (Some t)
  else
    f <- py_getitem data "frame" ;;
    data_length <- py_len f ;;
    s <- select_window data data_length ;;
    update_line_data s ;;;
    autoscale_y s ;;;
    update_xlim data_length ;;;
    ret None.

(** Lines 65-123: the body of the [try]. *)
Definition animate_body (callback : Callback) : M (option LineTuple) :=
  data <- call_callback callback ;;
  redraw data.

(** Line 126: the handler of [except Exception as e]. *)
Definition animate_handler (e : exn) : M (option LineTuple) :=
  print ("Error in animation update: " +:+ exn_str e) ;;;
  ret None.

(** [animate(self, frame)] *)
Definition animate (frame : Z) : M LineTuple :=
  cb <- gets (fun w => data_callback (self w)) ;;
  match cb with
  | None => current_lines
  | Some callback =>
      early <- try_except (animate_body callback) animate_handler ;;
      match early with
      | Some t => ret t
      | None => current_lines
      end
  end.

(** [self.animation.event_source.stop()], under [if self.animation:] *)
Definition stop_event_source : M unit :=
  a <- gets (fun w => animation (self w)) ;;
  match a with
  | Some an =>
      modify_self
        (with_animation (Some (mkAnimation (timer_stop (event_source an)))))
  | None => ret tt
  end.

(** [stop_visualization(self)] *)
Definition stop_visualization : M unit :=
  stop_event_source ;;;
  plt_close_all.

Section Start.

(** [plt.show()]: the event loop.  It may run any number of ticks, start
    the timer, change any part of the world, and leave either normally
    (the surface was closed) or by an exception (an interrupt). *)
Variable plt_show : M unit.

(** [start_visualization(self, data_callback)] *)
Definition start_visualization (callback : Callback) : M unit :=
  modify_self (with_data_callback (Some callback)) ;;;
  print "Starting real-time visualization..." ;;;
  print "Close the plot window or press Ctrl+C to stop" ;;;
  itv <- gets (fun w => update_interval (self w)) ;;
  modify_self (with_animation (Some (FuncAnimation itv))) ;;;
  try_finally plt_show stop_event_source.

End Start.

(** ** Vocabulary of the statements *)

(** The series a line shows: its x-coordinates paired with the content of
    its y-coordinate object. *)
Definition series (w : World) (l : Line2D) : option (list Z * list Q) :=
  match heap w !! ydata l with
  | Some y => Some (xdata l, y)
  | None => None
  end.

(** The trailing [n] elements of a sequence. *)
Definition take_last (n : nat) (l : list Q) : list Q :=
  drop (length l - n)%nat l.

(** [0, 1, ..., n-1] *)
Definition upto (n : nat) : list Z := map Z.of_nat (seq 0 n).

(** Channel [k] of the window [d] holds the sequence [l] in store [h]. *)
Definition chan (h : Heap) (d : gmap string loc) (k : string) (l : list Q)
  : Prop :=
  exists r, d !! k = Some r /\ h !! r = Some l.

(** A sample window as the data model has it: the seven channels are
    present and their sequences have the same length [L]. *)
Record sample_window (h : Heap) (d : gmap string loc) (L : nat)
    (ax ay az gx gy gz : list Q) : Prop := {
  sw_frame : exists fr, chan h d "frame" fr /\ length fr = L;
  sw_Ax : chan h d "Ax" ax;  sw_Ax_len : length ax = L;
  sw_Ay : chan h d "Ay" ay;  sw_Ay_len : length ay = L;
  sw_Az : chan h d "Az" az;  sw_Az_len : length az = L;
  sw_Gx : chan h d "Gx" gx;  sw_Gx_len : length gx = L;
  sw_Gy : chan h d "Gy" gy;  sw_Gy_len : length gy = L;
  sw_Gz : chan h d "Gz" gz;  sw_Gz_len : length gz = L
}.

(** The tick of world [w] has an accessor that answers [res] and leaves the
    store [h]. *)
Definition accessor_answers (w : World) (h : Heap) (res : exn + PyObj)
  : Prop :=
  exists cb, data_callback (self w) = Some cb /\ cb (heap w) = (h, res).




(** What auto-scaling does to an axes whose three series concatenate to
    [s]. *)
Definition rescale (a : Axes) (s : list Q) : Axes :=
  match min_list s, max_list s with
  | Some mn, Some mx =>
      if Qltb 0 (mx - mn)
      then set_ylim (mn - (1 # 10) * (mx - mn)) (mx + (1 # 10) * (mx - mn)) a
      else a
  | _, _ => a
  end.

(** What a tick on a window leaves behind: nothing printed, the six series
    [(xs, sx)], ..., [(xs, tz)], both axes rescaled from their series and
    given the horizontal extent [[0, hi]]. *)
Record window_tick (w w' : World) (xs : list Z)
    (sx sy sz tx ty tz : list Q) (hi : Z) : Prop := {
  wt_stdout : stdout w' = stdout w;
  wt_line_ax : series w' (line_ax (self w')) = Some (xs, sx);
  wt_line_ay : series w' (line_ay (self w')) = Some (xs, sy);
  wt_line_az : series w' (line_az (self w')) = Some (xs, sz);
  wt_line_gx : series w' (line_gx (self w')) = Some (xs, tx);
  wt_line_gy : series w' (line_gy (self w')) = Some (xs, ty);
  wt_line_gz : series w' (line_gz (self w')) = Some (xs, tz);
  wt_ax1 : ax1 (self w')
           = set_xlim 0 hi (rescale (ax1 (self w)) ((sx ++ sy) ++ sz));
  wt_ax2 : ax2 (self w')
           = set_xlim 0 hi (rescale (ax2 (self w)) ((tx ++ ty) ++ tz))
}.



(** A computation keeps a relation between the world before and after. *)
Definition keeps (R : World -> World -> Prop) {A} (m : M A) : Prop :=
  forall w w' r, m w = (w', r) -> R w w'.

(** The store only grows: every object of [w] is unchanged in [w']. *)
Definition store_grows (w w' : World) : Prop := heap w `prefix_of` heap w'.

(** The parts of [self] a tick has no business with. *)
Definition same_control (w w' : World) : Prop :=
  animation (self w') = animation (self w)
  /\ data_callback (self w') = data_callback (self w)
  /\ window_size (self w') = window_size (self w)
  /\ update_interval (self w') = update_interval (self w)
  /\ figures_open w' = figures_open w.

(** Nothing was printed. *)
Definition same_console (w w' : World) : Prop := stdout w' = stdout w.


(** ** Sample worlds *)

(** A window whose seven channels sit at the locations 0..6. *)
Definition window7 : gmap string loc :=
  <["frame" := 0%nat]> (<["Ax" := 1%nat]> (<["Ay" := 2%nat]>
  (<["Az" := 3%nat]> (<["Gx" := 4%nat]> (<["Gy" := 5%nat]>
  (<["Gz" := 6%nat]> ∅)))))).

(** An accessor that answers with its buffers as they are. *)
Definition answer (res : exn + PyObj) : Callback := fun h => (h, res).

(** A visualizer over the buffers [h], bound to the accessor [cb]. *)
Definition bound_world (W : Z) (h : Heap) (cb : Callback) : World :=
  let w := RealtimeVisualizer W 10 h in
  set_self (with_data_callback (Some cb) (self w)) w.

(** The same, with an accessor that hands out [window7]. *)
Definition sample_world (W : Z) (h : Heap) : World :=
  bound_world W h (answer (inr (PyDict window7))).

(** Three samples per channel. *)
Definition buffers3 : Heap :=
  [ [0; 1; 2]; [1; 2; 3]; [4; 5; 6]; [7; 8; 9];
    [1; 1; 2]; [3; 5; 8]; [13; 21; 34] ]%Q.

(** [n] samples per channel, all of the same value. *)
Definition flat_buffers (n : nat) : Heap := replicate 7 (replicate n 1%Q).

(** A malformed window: the accelerometer has samples, the gyroscope has
    none. *)
Definition buffers_no_gyro : Heap :=
  [ [0; 1]; [1; 2]; [4; 5]; [7; 9]; []; []; [] ]%Q.


(** A window without its [Gy] channel. *)
Definition window_no_Gy : gmap string loc := delete "Gy" window7.

(** An event loop that starts the timer, runs one tick and is then
    interrupted from the keyboard. *)
Definition show_interrupted : M unit :=
  modify_self (fun v => with_animation
                 (option_map (fun a => mkAnimation
                                (mkTimer (interval (event_source a)) true))
                             (animation v)) v) ;;;
  animate 0 ;;;
  raise KeyboardInterrupt.

(** An event loop that starts the timer, runs two ticks and ends because
    the surface was closed. *)
Definition show_closed : M unit :=
  modify_self (fun v => with_animation
                 (option_map (fun a => mkAnimation
                                (mkTimer (interval (event_source a)) true))
                             (animation v)) v) ;;;
  animate 0 ;;;
  animate 1 ;;;
  ret tt.

(** ** Further vocabulary *)

(** The six lines of a visualizer, as [animate] returns them. *)
Definition lines_of (v : Visualizer) : LineTuple :=
  (line_ax v, line_ay v, line_az v, line_gx v, line_gy v, line_gz v).

(** [P] holds of the series of each of the six lines. *)
Definition all_series (w : World)
    (P : option (list Z * list Q) -> Prop) : Prop :=
  P (series w (line_ax (self w))) /\ P (series w (line_ay (self w)))
  /\ P (series w (line_az (self w))) /\ P (series w (line_gx (self w)))
  /\ P (series w (line_gy (self w))) /\ P (series w (line_gz (self w))).

(** The six lines are the same objects with the same coordinates. *)
Definition same_lines (w w' : World) : Prop :=
  lines_of (self w') = lines_of (self w).

(** The six lines and their content are as before. *)
Definition same_series (w w' : World) : Prop :=
  same_lines w w' /\ store_grows w w'.

(** What a window of [L] samples per channel shows under the window size
    [W]: the part of a channel, the x-coordinates, and the right end of the
    horizontal extent. *)
Definition shown (W : Z) (L : nat) (l : list Q) : list Q :=
  if Z.of_nat L >? W then take_last (Z.to_nat W) l else l.

Definition shown_x (W : Z) (L : nat) : list Z :=
  if Z.of_nat L >? W then upto (Z.to_nat W) else upto L.

Definition extent_hi (W : Z) (L : nat) : Z :=
  if Z.of_nat L >? W then W else Z.max 50 (Z.of_nat L).


(** The value [y] lies strictly inside the extent [lim]. *)
Definition inside (lim : Q * Q) (y : Q) : Prop :=
  (fst lim < y)%Q /\ (y < snd lim)%Q.





(** * Properties *)

(** ** Numbers, [min] and [max] *)




(** Python's running minimum and maximum. *)







Lemma min_list_is_Some (l : list Q) : l <> [] -> is_Some (min_list l).
Proof. destruct l; [congruence | eexists; reflexivity]. Qed.

Lemma max_list_is_Some (l : list Q) : l <> [] -> is_Some (max_list l).
Proof. destruct l; [congruence | eexists; reflexivity]. Qed.

(** ** Slices *)

Lemma take_last_suffix (n : nat) (l : list Q) :
  (n <= length l)%nat ->
  exists pre, l = pre ++ take_last n l /\ length (take_last n l) = n.
Proof.
  intros H. exists (take (length l - n) l). unfold take_last. split.
  - symmetry. apply take_drop.
  - rewrite length_drop. lia.
Qed.

(** The slice a tick takes when it has more samples than the window. *)
Lemma slice_from_trailing (l : list Q) (W : Z) :
  W < Z.of_nat (length l) ->
  slice_from l (Z.of_nat (length l) - W) = take_last (Z.to_nat W) l.
Proof.
  intros H. unfold slice_from, take_last.
  replace (Z.of_nat (length l) - W <? 0) with false by lia.
  f_equal. lia.
Qed.

Lemma slice_from_trailing_len (l : list Q) (L : nat) (W : Z) :
  length l = L -> W < Z.of_nat L ->
  slice_from l (Z.of_nat L - W) = take_last (Z.to_nat W) l.
Proof. intros <-. apply slice_from_trailing. Qed.

Lemma take_last_length (n : nat) (l : list Q) :
  length (take_last n l) = Nat.min n (length l).
Proof. unfold take_last. rewrite length_drop. lia. Qed.

Lemma py_range_upto (n : nat) : py_range (Z.of_nat n) = upto n.
Proof. unfold py_range, upto. now rewrite Nat2Z.id. Qed.

(** ** Running the primitives *)

Lemma run_bind {A B} (m : M A) (k : A -> M B) (w w1 : World) (a : A) :
  m w = (w1, inr a) -> bind m k w = k a w1.
Proof. intros H. unfold bind. now rewrite H. Qed.

Lemma run_bind_raise {A B} (m : M A) (k : A -> M B) (w w1 : World) (e : exn) :
  m w = (w1, inl e) -> bind m k w = (w1, inl e).
Proof. intros H. unfold bind. now rewrite H. Qed.

Lemma run_getitem (d : gmap string loc) (k : string) (r : loc) (w : World) :
  d !! k = Some r -> py_getitem (PyDict d) k w = (w, inr r).
Proof. intros H. unfold py_getitem. now rewrite H. Qed.


Lemma run_deref (what : string) (r : loc) (l : list Q) (w : World) :
  heap w !! r = Some l -> deref what r w = (w, inr l).
Proof. intros H. unfold deref. now rewrite H. Qed.

Lemma run_len (r : loc) (l : list Q) (w : World) :
  heap w !! r = Some l -> py_len r w = (w, inr (Z.of_nat (length l))).
Proof. intros H. unfold py_len. now rewrite (run_bind _ _ _ _ _ (run_deref _ _ _ _ H)). Qed.

Lemma run_slice_from (r : loc) (l : list Q) (start : Z) (w : World) :
  heap w !! r = Some l ->
  py_slice_from r start w
  = (set_heap (heap w ++ [slice_from l start]) w, inr (length (heap w))).
Proof.
  intros H. unfold py_slice_from.
  now rewrite (run_bind _ _ _ _ _ (run_deref _ _ _ _ H)).
Qed.

Lemma run_add (a b : loc) (la lb : list Q) (w : World) :
  heap w !! a = Some la -> heap w !! b = Some lb ->
  py_add a b w = (set_heap (heap w ++ [la ++ lb]) w, inr (length (heap w))).
Proof.
  intros Ha Hb. unfold py_add.
  rewrite (run_bind _ _ _ _ _ (run_deref _ _ _ _ Ha)).
  now rewrite (run_bind _ _ _ _ _ (run_deref _ _ _ _ Hb)).
Qed.

Lemma run_min (r : loc) (l : list Q) (m : Q) (w : World) :
  heap w !! r = Some l -> min_list l = Some m -> py_min r w = (w, inr m).
Proof.
  intros H Hm. unfold py_min.
  rewrite (run_bind _ _ _ _ _ (run_deref _ _ _ _ H)). now rewrite Hm.
Qed.

Lemma run_max (r : loc) (l : list Q) (m : Q) (w : World) :
  heap w !! r = Some l -> max_list l = Some m -> py_max r w = (w, inr m).
Proof.
  intros H Hm. unfold py_max.
  rewrite (run_bind _ _ _ _ _ (run_deref _ _ _ _ H)). now rewrite Hm.
Qed.

(** Objects survive allocation, and the new object is where [alloc] says. *)
Lemma lookup_old (h k : Heap) (r : loc) (l : list Q) :
  h !! r = Some l -> (h ++ k) !! r = Some l.
Proof. apply lookup_app_l_Some. Qed.

Lemma lookup_new (h k : Heap) (l : list Q) (n : nat) :
  k !! n = Some l -> (h ++ k) !! (length h + n)%nat = Some l.
Proof. intros H. rewrite lookup_app_r by lia. now replace (length h + n - length h)%nat with n by lia. Qed.

Lemma lookup_new0 (h k : Heap) (l : list Q) :
  k !! 0%nat = Some l -> (h ++ k) !! length h = Some l.
Proof. intros H. rewrite <- (Nat.add_0_r (length h)). now apply lookup_new. Qed.

Lemma py_not_dict (d : gmap string loc) (k : string) (r : loc) :
  d !! k = Some r -> py_not (PyDict d) = false.
Proof.
  intros H. unfold py_not. apply bool_decide_eq_false. intros ->.
  rewrite lookup_empty in H. discriminate.
Qed.


(** ** Running the stages of a tick *)

Local Ltac world_simpl :=
  unfold set_heap, set_stdout, set_figures_open, set_self;
  cbn [heap stdout figures_open self].

Local Ltac find_object :=
  world_simpl; repeat apply lookup_old; eassumption.

Local Ltac run1 :=
  first
    [ erewrite run_bind; [| apply run_getitem; eassumption ]
    | erewrite run_bind; [| apply run_slice_from; find_object ] ];
  world_simpl.

(** More samples than the window: six fresh slices. *)
Lemma run_select_trailing (d : gmap string loc) (w : World) (n : Z)
    (rax ray raz rgx rgy rgz : loc) (ax ay az gx gy gz : list Q) :
  (n >? window_size (self w)) = true ->
  d !! "Ax" = Some rax -> heap w !! rax = Some ax ->
  d !! "Ay" = Some ray -> heap w !! ray = Some ay ->
  d !! "Az" = Some raz -> heap w !! raz = Some az ->
  d !! "Gx" = Some rgx -> heap w !! rgx = Some gx ->
  d !! "Gy" = Some rgy -> heap w !! rgy = Some gy ->
  d !! "Gz" = Some rgz -> heap w !! rgz = Some gz ->
  let k := n - window_size (self w) in
  let h := length (heap w) in
  select_window (PyDict d) n w
  = (set_heap (heap w ++ [slice_from ax k; slice_from ay k; slice_from az k;
                          slice_from gx k; slice_from gy k; slice_from gz k]) w,
     inr (mkSel (py_range (window_size (self w)))
                h (h + 1)%nat (h + 2)%nat (h + 3)%nat (h + 4)%nat (h + 5)%nat)).
Proof.
  intros HW Hax Hax' Hay Hay' Haz Haz' Hgx Hgx' Hgy Hgy' Hgz Hgz' k h.
  unfold select_window.
  erewrite run_bind; [| reflexivity]. rewrite HW. cbv beta iota zeta.
  do 6 (run1; run1). unfold ret.
  rewrite !length_app. cbn [length]. fold h. fold k.
  rewrite <- !app_assoc. cbn [app]. world_simpl.
  do 3 f_equal; lia.
Qed.

(** At most as many samples as the window: the accessor's own objects. *)
Lemma run_select_all (d : gmap string loc) (w : World) (n : Z)
    (rax ray raz rgx rgy rgz : loc) :
  (n >? window_size (self w)) = false ->
  d !! "Ax" = Some rax -> d !! "Ay" = Some ray -> d !! "Az" = Some raz ->
  d !! "Gx" = Some rgx -> d !! "Gy" = Some rgy -> d !! "Gz" = Some rgz ->
  select_window (PyDict d) n w
  = (w, inr (mkSel (py_range n) rax ray raz rgx rgy rgz)).
Proof.
  intros HW Hax Hay Haz Hgx Hgy Hgz. unfold select_window.
  erewrite run_bind; [| reflexivity]. rewrite HW. cbv beta iota zeta.
  do 6 run1. reflexivity.
Qed.

Lemma run_update_lines (s : Selection) (w : World) :
  update_line_data s w
  = (set_self
       (with_line_gz (set_data (x_data s) (gy_z s) (line_gz (self w)))
       (with_line_gy (set_data (x_data s) (gy_y s) (line_gy (self w)))
       (with_line_gx (set_data (x_data s) (gy_x s) (line_gx (self w)))
       (with_line_az (set_data (x_data s) (acc_z s) (line_az (self w)))
       (with_line_ay (set_data (x_data s) (acc_y s) (line_ay (self w)))
       (with_line_ax (set_data (x_data s) (acc_x s) (line_ax (self w)))
                     (self w))))))) w,
     inr tt).
Proof. reflexivity. Qed.

(** Nothing to scale when the first accelerometer series is empty. *)
Lemma run_autoscale_empty (s : Selection) (w : World) :
  heap w !! acc_x s = Some [] -> autoscale_y s w = (w, inr tt).
Proof.
  intros H. unfold autoscale_y.
  erewrite run_bind; [| apply run_len; eassumption]. reflexivity.
Qed.

(** Both axes are rescaled from the concatenation of their three series. *)
Lemma run_autoscale (s : Selection) (w : World) (sx sy sz tx ty tz : list Q) :
  heap w !! acc_x s = Some sx -> heap w !! acc_y s = Some sy ->
  heap w !! acc_z s = Some sz ->
  heap w !! gy_x s = Some tx -> heap w !! gy_y s = Some ty ->
  heap w !! gy_z s = Some tz ->
  sx <> [] -> tx <> [] ->
  autoscale_y s w
  = (set_self
       (with_ax2 (rescale (ax2 (self w)) ((tx ++ ty) ++ tz))
       (with_ax1 (rescale (ax1 (self w)) ((sx ++ sy) ++ sz)) (self w)))
       (set_heap (heap w ++ [sx ++ sy; (sx ++ sy) ++ sz;
                             tx ++ ty; (tx ++ ty) ++ tz]) w),
     inr tt).
Proof.
  intros Hx Hy Hz Gx Gy Gz Hne Gne.
  destruct w as [h o fo v]. destruct v as [W itv cb an l1 l2 l3 l4 l5 l6 a1 a2].
  cbn [heap self ax1 ax2] in *.
  destruct (min_list_is_Some ((sx ++ sy) ++ sz)) as [mn Hmn].
  { destruct sx; [congruence | discriminate]. }
  destruct (max_list_is_Some ((sx ++ sy) ++ sz)) as [mx Hmx].
  { destruct sx; [congruence | discriminate]. }
  destruct (min_list_is_Some ((tx ++ ty) ++ tz)) as [gn Hgn].
  { destruct tx; [congruence | discriminate]. }
  destruct (max_list_is_Some ((tx ++ ty) ++ tz)) as [gm Hgm].
  { destruct tx; [congruence | discriminate]. }
  unfold autoscale_y, rescale. rewrite Hmn, Hmx, Hgn, Hgm.
  erewrite run_bind; [| apply run_len; eassumption].
  replace (Z.of_nat (length sx) >? 0) with true
    by (destruct sx; [congruence | reflexivity]).
  erewrite run_bind; [| apply run_add; eassumption]. world_simpl.
  erewrite run_bind; [| apply run_add; [apply lookup_new0; reflexivity | find_object]].
  world_simpl.
  erewrite run_bind;
    [| eapply run_min; [apply (lookup_new0 (h ++ [_])); reflexivity | eassumption]].
  erewrite run_bind;
    [| eapply run_max; [apply (lookup_new0 (h ++ [_])); reflexivity | eassumption]].
  cbv zeta.
  destruct (Qltb 0 (mx - mn)) eqn:E1, (Qltb 0 (gm - gn)) eqn:E2.
  all: erewrite run_bind; [| reflexivity]; world_simpl.
  all: erewrite run_bind; [| apply run_add; find_object]; world_simpl.
  all: erewrite run_bind;
         [| apply run_add; [apply (lookup_new0 (_ ++ [_])); reflexivity
                           | find_object]]; world_simpl.
  all: erewrite run_bind;
         [| eapply run_min;
            [apply (lookup_new0 (_ ++ [_])); reflexivity | eassumption]].
  all: erewrite run_bind;
         [| eapply run_max;
            [apply (lookup_new0 (_ ++ [_])); reflexivity | eassumption]].
  all: cbv zeta; rewrite E2; unfold modify_self, modify, ret; world_simpl.
  all: rewrite <- !app_assoc; reflexivity.
Qed.

Lemma run_update_xlim (n : Z) (w : World) :
  let hi := if n >? window_size (self w) then window_size (self w)
            else Z.max 50 n in
  update_xlim n w
  = (set_self (with_ax2 (set_xlim 0 hi (ax2 (self w)))
              (with_ax1 (set_xlim 0 hi (ax1 (self w))) (self w))) w,
     inr tt).
Proof.
  intros hi. subst hi. unfold update_xlim.
  erewrite run_bind; [| reflexivity].
  destruct (n >? window_size (self w)); reflexivity.
Qed.

(** ** What every computation of a tick keeps *)

Section Keeps.

Variable R : World -> World -> Prop.
Hypothesis R_refl : forall w, R w w.
Hypothesis R_trans : forall w1 w2 w3, R w1 w2 -> R w2 w3 -> R w1 w3.

Lemma keeps_ret {A} (a : A) : keeps R (ret a).
Proof. intros w w' r [= <- _]. apply R_refl. Qed.

Lemma keeps_raise {A} (e : exn) : keeps R (@raise A e).
Proof. intros w w' r [= <- _]. apply R_refl. Qed.

Lemma keeps_gets {A} (f : World -> A) : keeps R (gets f).
Proof. intros w w' r [= <- _]. apply R_refl. Qed.

Lemma keeps_deref (what : string) (r : loc) : keeps R (deref what r).
Proof.
  intros w w' res. unfold deref.
  destruct (heap w !! r); intros [= <- _]; apply R_refl.
Qed.

Lemma keeps_bind {A B} (m : M A) (k : A -> M B) :
  keeps R m -> (forall a, keeps R (k a)) -> keeps R (bind m k).
Proof.
  intros Hm Hk w w' r. unfold bind.
  destruct (m w) as [w1 [e | a]] eqn:E.
  - intros [= <- _]. eapply Hm, E.
  - intros H. eapply R_trans; [eapply Hm, E | eapply Hk, H].
Qed.

Lemma keeps_try_except {A} (m : M A) (h : exn -> M A) :
  keeps R m -> (forall e, keeps R (h e)) -> keeps R (try_except m h).
Proof.
  intros Hm Hh w w' r. unfold try_except.
  destruct (m w) as [w1 [e | a]] eqn:E.
  - destruct (is_Exception e).
    + intros H. eapply R_trans; [eapply Hm, E | eapply Hh, H].
    + intros [= <- _]. eapply Hm, E.
  - intros [= <- _]. eapply Hm, E.
Qed.

Lemma keeps_try_finally {A} (m : M A) (c : M unit) :
  keeps R m -> keeps R c -> keeps R (try_finally m c).
Proof.
  intros Hm Hc w w' r. unfold try_finally.
  destruct (m w) as [w1 r1] eqn:E. destruct (c w1) as [w2 [e | u]] eqn:E2.
  all: intros [= <- _]; eapply R_trans; [eapply Hm, E | eapply Hc, E2].
Qed.

Lemma keeps_getitem (data : PyObj) (k : string) : keeps R (py_getitem data k).
Proof.
  destruct data as [|d]; simpl; [apply keeps_raise|].
  destruct (d !! k); [apply keeps_ret | apply keeps_raise].
Qed.

Lemma keeps_len (r : loc) : keeps R (py_len r).
Proof. apply keeps_bind; [apply keeps_deref | intros; apply keeps_ret]. Qed.

Lemma keeps_min (r : loc) : keeps R (py_min r).
Proof.
  apply keeps_bind; [apply keeps_deref | intros l].
  destruct (min_list l); [apply keeps_ret | apply keeps_raise].
Qed.

Lemma keeps_max (r : loc) : keeps R (py_max r).
Proof.
  apply keeps_bind; [apply keeps_deref | intros l].
  destruct (max_list l); [apply keeps_ret | apply keeps_raise].
Qed.

Lemma keeps_current_lines : keeps R current_lines.
Proof. apply keeps_gets. Qed.

(** The stages of a tick are built from [alloc], [print] and updates of
    [self]; whatever those three keep, the whole tick keeps. *)
Hypothesis keeps_alloc : forall l, keeps R (alloc l).
Hypothesis keeps_print : forall s, keeps R (print s).
Hypothesis keeps_line_ax : forall l, keeps R (modify_self (fun v => with_line_ax (l v) v)).
Hypothesis keeps_line_ay : forall l, keeps R (modify_self (fun v => with_line_ay (l v) v)).
Hypothesis keeps_line_az : forall l, keeps R (modify_self (fun v => with_line_az (l v) v)).
Hypothesis keeps_line_gx : forall l, keeps R (modify_self (fun v => with_line_gx (l v) v)).
Hypothesis keeps_line_gy : forall l, keeps R (modify_self (fun v => with_line_gy (l v) v)).
Hypothesis keeps_line_gz : forall l, keeps R (modify_self (fun v => with_line_gz (l v) v)).
Hypothesis keeps_ax1 : forall a, keeps R (modify_self (fun v => with_ax1 (a v) v)).
Hypothesis keeps_ax2 : forall a, keeps R (modify_self (fun v => with_ax2 (a v) v)).

Local Ltac keeps_step :=
  first
    [ apply keeps_ret | apply keeps_raise | apply keeps_gets
    | apply keeps_getitem | apply keeps_len | apply keeps_min
    | apply keeps_max | apply keeps_current_lines
    | apply keeps_alloc | apply keeps_print | apply keeps_deref
    | apply (keeps_line_ax (fun v => _)) | apply (keeps_line_ay (fun v => _))
    | apply (keeps_line_az (fun v => _)) | apply (keeps_line_gx (fun v => _))
    | apply (keeps_line_gy (fun v => _)) | apply (keeps_line_gz (fun v => _))
    | apply (keeps_ax1 (fun v => _)) | apply (keeps_ax2 (fun v => _))
    | apply keeps_bind; [| intros ?]
    | match goal with
      | |- keeps _ (if ?b then _ else _) => destruct b
      | |- keeps _ (match ?o with Some _ => _ | None => _ end) => destruct o
      end ].

Lemma keeps_slice_from (r : loc) (start : Z) : keeps R (py_slice_from r start).
Proof. unfold py_slice_from. repeat keeps_step. Qed.

Lemma keeps_add (a b : loc) : keeps R (py_add a b).
Proof. unfold py_add. repeat keeps_step. Qed.

Lemma keeps_select_window (data : PyObj) (n : Z) :
  keeps R (select_window data n).
Proof.
  unfold select_window.
  repeat first [apply keeps_slice_from | keeps_step].
Qed.

Lemma keeps_update_line_data (s : Selection) : keeps R (update_line_data s).
Proof. unfold update_line_data. repeat keeps_step. Qed.

Lemma keeps_autoscale_y (s : Selection) : keeps R (autoscale_y s).
Proof. unfold autoscale_y. repeat first [apply keeps_add | keeps_step]. Qed.

Lemma keeps_update_xlim (n : Z) : keeps R (update_xlim n).
Proof. unfold update_xlim. repeat keeps_step. Qed.

Lemma keeps_redraw (data : PyObj) : keeps R (redraw data).
Proof.
  unfold redraw.
  repeat first
    [ apply keeps_select_window | apply keeps_update_line_data
    | apply keeps_autoscale_y | apply keeps_update_xlim | keeps_step ].
Qed.

Lemma keeps_animate_handler (e : exn) : keeps R (animate_handler e).
Proof. unfold animate_handler. repeat keeps_step. Qed.

(** With an accessor that keeps [R], so does the whole tick. *)
Lemma keeps_animate_body (cb : Callback) :
  keeps R (call_callback cb) -> keeps R (animate_body cb).
Proof. intros Hcb. apply keeps_bind; [apply Hcb | apply keeps_redraw]. Qed.

Lemma keeps_animate (frame : Z) :
  (forall cb, keeps R (call_callback cb)) -> keeps R (animate frame).
Proof.
  intros Hcb. unfold animate. apply keeps_bind; [apply keeps_gets | intros cb].
  destruct cb as [cb|]; [| apply keeps_current_lines].
  apply keeps_bind.
  - apply keeps_try_except; [| apply keeps_animate_handler].
    apply keeps_animate_body, Hcb.
  - intros [t|]; [apply keeps_ret | apply keeps_current_lines].
Qed.

End Keeps.

(** *** The store only grows *)

Lemma store_grows_refl (w : World) : store_grows w w.
Proof. unfold store_grows. reflexivity. Qed.

Lemma store_grows_trans (w1 w2 w3 : World) :
  store_grows w1 w2 -> store_grows w2 w3 -> store_grows w1 w3.
Proof. unfold store_grows. intros H1 H2. now transitivity (heap w2). Qed.

Lemma store_grows_alloc (l : list Q) : keeps store_grows (alloc l).
Proof. intros w w' r [= <- _]. apply prefix_app_r. reflexivity. Qed.



(** *** The timer, the accessor and the configuration are not touched *)

Lemma same_control_refl (w : World) : same_control w w.
Proof. unfold same_control. tauto. Qed.

Lemma same_control_trans (w1 w2 w3 : World) :
  same_control w1 w2 -> same_control w2 w3 -> same_control w1 w3.
Proof. unfold same_control. intros H1 H2. intuition congruence. Qed.

Lemma same_control_when {A} (m : M A) :
  (forall w, same_control w (fst (m w))) -> keeps same_control m.
Proof. intros H w w' r E. specialize (H w). now rewrite E in H. Qed.

Lemma callback_same_control (cb : Callback) :
  keeps same_control (call_callback cb).
Proof.
  apply same_control_when. intros w. unfold call_callback.
  destruct (cb (heap w)). unfold same_control. tauto.
Qed.


Lemma animate_same_control (frame : Z) : keeps same_control (animate frame).
Proof.
  apply keeps_animate;
    [ apply same_control_refl | apply same_control_trans | .. ];
    try apply callback_same_control;
    intros; apply same_control_when; intros w; unfold same_control; tauto.
Qed.

(** Auto-scaling on six series of one length, empty or not. *)
Lemma run_autoscale_equal (s : Selection) (w : World) (n : nat)
    (sx sy sz tx ty tz : list Q) :
  heap w !! acc_x s = Some sx -> heap w !! acc_y s = Some sy ->
  heap w !! acc_z s = Some sz ->
  heap w !! gy_x s = Some tx -> heap w !! gy_y s = Some ty ->
  heap w !! gy_z s = Some tz ->
  length sx = n -> length sy = n -> length sz = n ->
  length tx = n -> length ty = n -> length tz = n ->
  autoscale_y s w
  = (set_self
       (with_ax2 (rescale (ax2 (self w)) ((tx ++ ty) ++ tz))
       (with_ax1 (rescale (ax1 (self w)) ((sx ++ sy) ++ sz)) (self w)))
       (set_heap (heap w ++ match n with
                            | O => []
                            | S _ => [sx ++ sy; (sx ++ sy) ++ sz;
                                      tx ++ ty; (tx ++ ty) ++ tz]
                            end) w),
     inr tt).
Proof.
  intros Hx Hy Hz Gx Gy Gz Lx Ly Lz Mx My Mz. destruct n as [|n].
  - apply nil_length_inv in Lx, Ly, Lz, Mx, My, Mz. subst.
    rewrite (run_autoscale_empty _ _ Hx).
    destruct w as [h o fo v]. destruct v. cbn. now rewrite app_nil_r.
  - apply run_autoscale; auto; intros ->; discriminate.
Qed.

(** ** A tick on a well-formed window *)

Local Ltac open_window Hacc Hwin :=
  destruct Hacc as (cb & Hcb & Hres);
  destruct Hwin as [(fr & (rf & Hf & Hf') & Lf)
                    (rax & Hax & Hax') Lax (ray & Hay & Hay') Lay
                    (raz & Haz & Haz') Laz (rgx & Hgx & Hgx') Lgx
                    (rgy & Hgy & Hgy') Lgy (rgz & Hgz & Hgz') Lgz].

(** The prologue of [redraw] on a window with samples: the frame is there
    and not empty, so the tick goes on to the windowing. *)
Lemma run_redraw_prologue (d : gmap string loc) (w : World) (rf : loc)
    (fr : list Q) :
  d !! "frame" = Some rf -> heap w !! rf = Some fr -> fr <> [] ->
  redraw (PyDict d) w
  = (s <- select_window (PyDict d) (Z.of_nat (length fr)) ;;
     update_line_data s ;;;
     autoscale_y s ;;;
     update_xlim (Z.of_nat (length fr)) ;;;
     ret None) w.
Proof.
  intros Hf Hf' Hne. unfold redraw. rewrite (py_not_dict _ _ _ Hf).
  erewrite (run_bind (bind _ _)).
  2:{ erewrite run_bind; [| apply run_getitem; eassumption].
      erewrite run_bind; [| apply run_len; eassumption]. reflexivity. }
  replace (Z.of_nat (length fr) =? 0) with false
    by (destruct fr; [congruence | reflexivity]).
  erewrite run_bind; [| apply run_getitem; eassumption].
  erewrite run_bind; [| apply run_len; eassumption]. reflexivity.
Qed.

(** [animate] around a [redraw] that runs to its end. *)
Lemma run_animate_redraw (frame : Z) (w w' : World) (cb : Callback)
    (h : Heap) (data : PyObj) :
  data_callback (self w) = Some cb -> cb (heap w) = (h, inr data) ->
  redraw data (set_heap h w) = (w', inr None) ->
  animate frame w
  = (w', inr (line_ax (self w'), line_ay (self w'), line_az (self w'),
              line_gx (self w'), line_gy (self w'), line_gz (self w'))).
Proof.
  intros Hcb Hres Hrun. unfold animate.
  erewrite run_bind; [| reflexivity]. rewrite Hcb.
  erewrite run_bind.
  2:{ unfold try_except, animate_body.
      erewrite run_bind; [| unfold call_callback; rewrite Hres; reflexivity].
      rewrite Hrun. reflexivity. }
  reflexivity.
Qed.

Lemma series_at (w : World) (l : Line2D) (xs : list Z) (ys : list Q) :
  xdata l = xs -> heap w !! ydata l = Some ys -> series w l = Some (xs, ys).
Proof. intros <- H. unfold series. now rewrite H. Qed.

(** More samples than the window holds. *)
Lemma tick_trailing (frame : Z) (w : World) (h : Heap)
    (d : gmap string loc) (L : nat) (ax ay az gx gy gz : list Q) :
  accessor_answers w h (inr (PyDict d)) ->
  sample_window h d L ax ay az gx gy gz ->
  (0 < L)%nat ->
  window_size (self w) < Z.of_nat L ->
  let n := Z.to_nat (window_size (self w)) in
  exists w',
    animate frame w
    = (w', inr (line_ax (self w'), line_ay (self w'), line_az (self w'),
                line_gx (self w'), line_gy (self w'), line_gz (self w')))
    /\ window_tick w w' (upto n)
         (take_last n ax) (take_last n ay) (take_last n az)
         (take_last n gx) (take_last n gy) (take_last n gz)
         (window_size (self w))
    /\ ydata (line_ax (self w')) = length h
    /\ ydata (line_ay (self w')) = (length h + 1)%nat
    /\ ydata (line_az (self w')) = (length h + 2)%nat
    /\ ydata (line_gx (self w')) = (length h + 3)%nat
    /\ ydata (line_gy (self w')) = (length h + 4)%nat
    /\ ydata (line_gz (self w')) = (length h + 5)%nat.
Proof.
  intros Hacc Hwin HL HW n. open_window Hacc Hwin.
  assert (Hbig : (Z.of_nat (length fr) >? window_size (self w)) = true) by lia.
  assert (Hne : fr <> []) by (intros ->; simpl in Lf; lia).
  destruct w as [h0 o fo v].
  destruct v as [W itv cb0 an l1 l2 l3 l4 l5 l6 a1 a2].
  cbn [heap self window_size data_callback] in *.
  eexists. split.
  { eapply run_animate_redraw; [exact Hcb | exact Hres |].
    world_simpl.
    rewrite (run_redraw_prologue d _ rf fr Hf); [| exact Hf' | exact Hne].
    erewrite run_bind.
    2:{ apply (run_select_trailing d _ _ rax ray raz rgx rgy rgz
                 ax ay az gx gy gz); eassumption. }
    world_simpl. cbn [window_size].
    rewrite Lf.
    rewrite (slice_from_trailing_len ax L), (slice_from_trailing_len ay L),
      (slice_from_trailing_len az L), (slice_from_trailing_len gx L),
      (slice_from_trailing_len gy L), (slice_from_trailing_len gz L)
      by (assumption || lia).
    fold n.
    erewrite run_bind; [| apply run_update_lines].
    erewrite run_bind.
    2:{ apply (run_autoscale_equal _ _ (Nat.min n L)
                 (take_last n ax) (take_last n ay) (take_last n az)
                 (take_last n gx) (take_last n gy) (take_last n gz)).
        all: try (rewrite take_last_length; congruence).
        all: world_simpl; cbn [acc_x acc_y acc_z gy_x gy_y gy_z].
        - apply lookup_new0. reflexivity.
        - apply lookup_new. reflexivity.
        - apply lookup_new. reflexivity.
        - apply lookup_new. reflexivity.
        - apply lookup_new. reflexivity.
        - apply lookup_new. reflexivity. }
    erewrite run_bind; [| apply run_update_xlim].
    world_simpl. cbn [window_size with_ax1 with_ax2 with_line_ax with_line_ay
      with_line_az with_line_gx with_line_gy with_line_gz ax1 ax2].
    rewrite <- Lf, Hbig. reflexivity. }
  split; [| repeat split; reflexivity].
  unfold upto, n, py_range.
  split; try reflexivity.
  all: apply series_at; [reflexivity |].
  all: world_simpl; apply lookup_old.
  - apply lookup_new0; reflexivity.
  - apply lookup_new; reflexivity.
  - apply lookup_new; reflexivity.
  - apply lookup_new; reflexivity.
  - apply lookup_new; reflexivity.
  - apply lookup_new; reflexivity.
Qed.

(** At most as many samples as the window holds. *)
Lemma tick_all (frame : Z) (w : World) (h : Heap)
    (d : gmap string loc) (L : nat) (ax ay az gx gy gz : list Q) :
  accessor_answers w h (inr (PyDict d)) ->
  sample_window h d L ax ay az gx gy gz ->
  (0 < L)%nat ->
  Z.of_nat L <= window_size (self w) ->
  exists w',
    animate frame w
    = (w', inr (line_ax (self w'), line_ay (self w'), line_az (self w'),
                line_gx (self w'), line_gy (self w'), line_gz (self w')))
    /\ window_tick w w' (upto L) ax ay az gx gy gz (Z.max 50 (Z.of_nat L))
    /\ d !! "Ax" = Some (ydata (line_ax (self w')))
    /\ d !! "Ay" = Some (ydata (line_ay (self w')))
    /\ d !! "Az" = Some (ydata (line_az (self w')))
    /\ d !! "Gx" = Some (ydata (line_gx (self w')))
    /\ d !! "Gy" = Some (ydata (line_gy (self w')))
    /\ d !! "Gz" = Some (ydata (line_gz (self w'))).
Proof.
  intros Hacc Hwin HL HW. open_window Hacc Hwin.
  assert (Hbig : (Z.of_nat (length fr) >? window_size (self w)) = false) by lia.
  assert (Hne : fr <> []) by (intros ->; simpl in Lf; lia).
  destruct w as [h0 o fo v].
  destruct v as [W itv cb0 an l1 l2 l3 l4 l5 l6 a1 a2].
  cbn [heap self window_size data_callback] in *.
  eexists. split.
  { eapply run_animate_redraw; [exact Hcb | exact Hres |].
    world_simpl.
    rewrite (run_redraw_prologue d _ rf fr Hf); [| exact Hf' | exact Hne].
    erewrite run_bind.
    2:{ apply (run_select_all d _ _ rax ray raz rgx rgy rgz); eassumption. }
    erewrite run_bind; [| apply run_update_lines].
    erewrite run_bind.
    2:{ apply (run_autoscale_equal _ _ L ax ay az gx gy gz); eassumption. }
    erewrite run_bind; [| apply run_update_xlim].
    world_simpl. cbn [window_size with_ax1 with_ax2 with_line_ax with_line_ay
      with_line_az with_line_gx with_line_gy with_line_gz ax1 ax2].
    rewrite Hbig. reflexivity. }
  split; [| repeat split; assumption].
  rewrite Lf, py_range_upto.
  split; try reflexivity.
  all: apply series_at; [reflexivity |].
  all: world_simpl; apply lookup_old; assumption.
Qed.

(** ** The windowing policy *)

(** The sample worlds hold well-formed windows. *)
Lemma sample_world_answers (W : Z) (h : Heap) :
  accessor_answers (sample_world W h) (heap (sample_world W h))
                   (inr (PyDict window7)).
Proof. eexists. split; reflexivity. Qed.

Lemma buffers3_window (W : Z) :
  sample_window (heap (sample_world W buffers3)) window7 3
    [1; 2; 3]%Q [4; 5; 6]%Q [7; 8; 9]%Q [1; 1; 2]%Q [3; 5; 8]%Q [13; 21; 34]%Q.
Proof.
  split; try reflexivity.
  - exists [0; 1; 2]%Q. split; [| reflexivity].
    exists 0%nat. split; vm_compute; reflexivity.
  - exists 1%nat. split; vm_compute; reflexivity.
  - exists 2%nat. split; vm_compute; reflexivity.
  - exists 3%nat. split; vm_compute; reflexivity.
  - exists 4%nat. split; vm_compute; reflexivity.
  - exists 5%nat. split; vm_compute; reflexivity.
  - exists 6%nat. split; vm_compute; reflexivity.
Defined.


(** C1.  When every channel of the sample window has [L] samples and [L]
    exceeds the configured window size [W], the tick shows, for each of the
    six channels Ax, Ay, Az, Gx, Gy, Gz, exactly its trailing [W] samples
    (see [take_last_suffix]), paired with the x-coordinates 0, 1, ..., W-1. *)
Theorem C1_trailing_window_shown (frame : Z) (w : World) (h : Heap)
    (d : gmap string loc) (L : nat) (ax ay az gx gy gz : list Q) :
  accessor_answers w h (inr (PyDict d)) ->
  sample_window h d L ax ay az gx gy gz ->
  0 <= window_size (self w) < Z.of_nat L ->
  let n := Z.to_nat (window_size (self w)) in
  let w' := fst (animate frame w) in
  series w' (line_ax (self w')) = Some (upto n, take_last n ax)
  /\ series w' (line_ay (self w')) = Some (upto n, take_last n ay)
  /\ series w' (line_az (self w')) = Some (upto n, take_last n az)
  /\ series w' (line_gx (self w')) = Some (upto n, take_last n gx)
  /\ series w' (line_gy (self w')) = Some (upto n, take_last n gy)
  /\ series w' (line_gz (self w')) = Some (upto n, take_last n gz).
Proof.
  intros Hacc Hwin HW n w'.
  destruct (tick_trailing frame w h d L ax ay az gx gy gz Hacc Hwin)
    as (w1 & Hrun & Htick & _); [lia | lia |].
  subst w'. rewrite Hrun. cbn [fst]. destruct Htick. repeat split; assumption.
Qed.

Lemma C1_trailing_window_shown_witness :
  let w := sample_world 2 buffers3 in
  let w' := fst (animate 0 w) in
  0 <= window_size (self w) < 3
  /\ series w' (line_ax (self w')) = Some ([0; 1], [2; 3]%Q)
  /\ series w' (line_ay (self w')) = Some ([0; 1], [5; 6]%Q)
  /\ series w' (line_az (self w')) = Some ([0; 1], [8; 9]%Q)
  /\ series w' (line_gx (self w')) = Some ([0; 1], [1; 2]%Q)
  /\ series w' (line_gy (self w')) = Some ([0; 1], [5; 8]%Q)
  /\ series w' (line_gz (self w')) = Some ([0; 1], [21; 34]%Q).
Proof.
  intros w w'.
  assert (HW : 0 <= window_size (self w) < Z.of_nat 3) by (simpl; lia).
  split; [exact HW |].
  exact (C1_trailing_window_shown 0 w _ _ 3 _ _ _ _ _ _
           (sample_world_answers 2 buffers3) (buffers3_window 2) HW).
Defined.

(** C2.  When every channel of the sample window has [L] samples with
    [0 < L <= W], the tick shows all [L] samples of each of the six channels
    as they are, paired with the x-coordinates 0, 1, ..., L-1. *)
Theorem C2_whole_window_shown (frame : Z) (w : World) (h : Heap)
    (d : gmap string loc) (L : nat) (ax ay az gx gy gz : list Q) :
  accessor_answers w h (inr (PyDict d)) ->
  sample_window h d L ax ay az gx gy gz ->
  0 < Z.of_nat L <= window_size (self w) ->
  let w' := fst (animate frame w) in
  series w' (line_ax (self w')) = Some (upto L, ax)
  /\ series w' (line_ay (self w')) = Some (upto L, ay)
  /\ series w' (line_az (self w')) = Some (upto L, az)
  /\ series w' (line_gx (self w')) = Some (upto L, gx)
  /\ series w' (line_gy (self w')) = Some (upto L, gy)
  /\ series w' (line_gz (self w')) = Some (upto L, gz).
Proof.
  intros Hacc Hwin HW w'.
  destruct (tick_all frame w h d L ax ay az gx gy gz Hacc Hwin)
    as (w1 & Hrun & Htick & _); [lia | lia |].
  subst w'. rewrite Hrun. cbn [fst]. destruct Htick. repeat split; assumption.
Qed.

Lemma C2_whole_window_shown_witness :
  let w := sample_world 1000 buffers3 in
  let w' := fst (animate 0 w) in
  0 < 3 <= window_size (self w)
  /\ series w' (line_ax (self w')) = Some ([0; 1; 2], [1; 2; 3]%Q)
  /\ series w' (line_ay (self w')) = Some ([0; 1; 2], [4; 5; 6]%Q)
  /\ series w' (line_az (self w')) = Some ([0; 1; 2], [7; 8; 9]%Q)
  /\ series w' (line_gx (self w')) = Some ([0; 1; 2], [1; 1; 2]%Q)
  /\ series w' (line_gy (self w')) = Some ([0; 1; 2], [3; 5; 8]%Q)
  /\ series w' (line_gz (self w')) = Some ([0; 1; 2], [13; 21; 34]%Q).
Proof.
  intros w w'.
  assert (HW : 0 < Z.of_nat 3 <= window_size (self w)) by (simpl; lia).
  split; [exact HW |].
  exact (C2_whole_window_shown 0 w _ _ 3 _ _ _ _ _ _
           (sample_world_answers 1000 buffers3) (buffers3_window 1000) HW).
Defined.

(** ** The horizontal extent *)



(** ** Auto-scaling *)






(** The rule at work: accelerometer values from 1 to 9 give the extent
    [[1 - 0.8, 9 + 0.8]], gyroscope values from 1 to 34 give
    [[1 - 3.3, 34 + 3.3]]; a flat signal leaves the extent alone. *)
Example autoscale_buffers3 :
  let w' := fst (animate 0 (sample_world 1000 buffers3)) in
  ylim (ax1 (self w')) = (1 - (1 # 10) * (9 - 1), 9 + (1 # 10) * (9 - 1))%Q
  /\ ylim (ax2 (self w'))
     = (1 - (1 # 10) * (34 - 1), 34 + (1 # 10) * (34 - 1))%Q.
Proof. vm_compute. split; reflexivity. Qed.

Example autoscale_flat :
  let w := sample_world 1000 (flat_buffers 10) in
  let w' := fst (animate 0 w) in
  ylim (ax1 (self w')) = ylim (ax1 (self w))
  /\ ylim (ax2 (self w')) = ylim (ax2 (self w)).
Proof. vm_compute. split; reflexivity. Qed.

(** ** No data yet *)




(** The other two situations, run. *)
Example tick_unbound :
  let w := RealtimeVisualizer 1000 10 buffers3 in animate 0 w
  = (w, inr (line_ax (self w), line_ay (self w), line_az (self w),
             line_gx (self w), line_gy (self w), line_gz (self w))).
Proof. reflexivity. Qed.

Example tick_none :
  let w := bound_world 1000 buffers3 (answer (inr PyNone)) in animate 0 w
  = (w, inr (line_ax (self w), line_ay (self w), line_az (self w),
             line_gx (self w), line_gy (self w), line_gz (self w))).
Proof. reflexivity. Qed.

Example tick_empty_dict :
  let w := bound_world 1000 buffers3 (answer (inr (PyDict ∅))) in animate 0 w
  = (w, inr (line_ax (self w), line_ay (self w), line_az (self w),
             line_gx (self w), line_gy (self w), line_gz (self w))).
Proof. vm_compute. reflexivity. Qed.

(** ** A window that lacks a channel *)





(** [animate] around a [redraw] that raises an [Exception]. *)
Lemma run_animate_caught (frame : Z) (w w1 : World) (cb : Callback)
    (e : exn) :
  data_callback (self w) = Some cb ->
  animate_body cb w = (w1, inl e) ->
  is_Exception e = true ->
  animate frame w
  = (set_stdout (stdout w1 ++ ["Error in animation update: " +:+ exn_str e]) w1,
     inr (line_ax (self w1), line_ay (self w1), line_az (self w1),
          line_gx (self w1), line_gy (self w1), line_gz (self w1))).
Proof.
  intros Hcb Hrun He. unfold animate.
  erewrite run_bind; [| reflexivity]. rewrite Hcb.
  erewrite run_bind.
  2:{ unfold try_except. rewrite Hrun, He. reflexivity. }
  reflexivity.
Qed.



(** A window without [Gy], with more samples than the window size: the
    slices taken before the miss are garbage, the series are untouched. *)
Example tick_without_Gy :
  let w := bound_world 2 buffers3 (answer (inr (PyDict window_no_Gy))) in
  let w' := fst (animate 0 w) in
  self w' = self w
  /\ stdout w' = ["Error in animation update: 'Gy'"]
  /\ length (heap w') = (length (heap w) + 4)%nat.
Proof. vm_compute. repeat split; reflexivity. Qed.

(** ** Exceptions during a tick *)

Lemma same_console_refl (w : World) : same_console w w.
Proof. reflexivity. Qed.

Lemma same_console_trans (w1 w2 w3 : World) :
  same_console w1 w2 -> same_console w2 w3 -> same_console w1 w3.
Proof. unfold same_console. congruence. Qed.

(** The body of the [try] prints nothing. *)
Lemma animate_body_same_console (cb : Callback) :
  keeps same_console (animate_body cb).
Proof.
  apply keeps_animate_body;
    [ apply same_console_refl | apply same_console_trans | .. ].
  all: try (intros; intros w w' r [= <- _]; reflexivity).
  intros w w' r. unfold call_callback. destruct (cb (heap w)).
  intros [= <- _]. reflexivity.
Qed.



Example tick_without_gyro :
  let w := sample_world 1000 buffers_no_gyro in
  let w' := fst (animate 0 w) in
  series w' (line_ax (self w')) = Some ([0; 1], [1; 2]%Q)
  /\ series w' (line_gz (self w')) = Some ([0; 1], [])
  /\ ylim (ax1 (self w')) = (1 - (1 # 10) * (9 - 1), 9 + (1 # 10) * (9 - 1))%Q
  /\ ax2 (self w') = ax2 (self w)
  /\ xlim (ax1 (self w')) = xlim (ax1 (self w))
  /\ stdout w'
     = ["Error in animation update: min() arg is an empty sequence"].
Proof. vm_compute. repeat split; reflexivity. Qed.


(** ** Stopping *)


(** The three uses named in C7, run: before a start, twice in a row,
    and with a running redraw. *)
Example stop_before_start :
  let w := RealtimeVisualizer 1000 10 [] in
  stop_visualization w = (set_figures_open false w, inr tt).
Proof. reflexivity. Qed.

Example stop_twice :
  let w := RealtimeVisualizer 1000 10 [] in
  (stop_visualization ;;; stop_visualization) w
  = (set_figures_open false w, inr tt).
Proof. reflexivity. Qed.

Example stop_running :
  let w := RealtimeVisualizer 1000 10 [] in
  let running := set_self (with_animation
                   (Some (mkAnimation (mkTimer 10 true))) (self w)) w in
  let w1 := fst (stop_visualization running) in
  animation (self w1) = Some (mkAnimation (mkTimer 10 false))
  /\ figures_open w1 = false.
Proof. split; reflexivity. Qed.


(** An interrupted run and a run ended by closing the surface. *)
Example start_interrupted :
  let w := RealtimeVisualizer 1000 10 buffers3 in
  let cb := answer (inr (PyDict window7)) in
  let w' := fst (start_visualization show_interrupted cb w) in
  snd (start_visualization show_interrupted cb w) = inl KeyboardInterrupt
  /\ animation (self w') = Some (mkAnimation (mkTimer 10 false))
  /\ series w' (line_ax (self w')) = Some ([0; 1; 2], [1; 2; 3]%Q).
Proof. vm_compute. repeat split; reflexivity. Qed.

Example start_closed :
  let w := RealtimeVisualizer 1000 10 buffers3 in
  let cb := answer (inr (PyDict window7)) in
  let w' := fst (start_visualization show_closed cb w) in
  snd (start_visualization show_closed cb w) = inr tt
  /\ animation (self w') = Some (mkAnimation (mkTimer 10 false))
  /\ stdout w' = ["Starting real-time visualization...";
                  "Close the plot window or press Ctrl+C to stop"].
Proof. vm_compute. repeat split; reflexivity. Qed.

(** ** The sample window is only read *)





(** With a window of 2 the same buffers are sliced: the series hold new
    objects. *)
Example series_hold_slices :
  let w := sample_world 2 buffers3 in
  let w' := fst (animate 0 w) in
  heap w !! ydata (line_ax (self w')) = None
  /\ heap w' !! ydata (line_ax (self w')) = Some [2; 3]%Q
  /\ heap w' !! 1%nat = Some [1; 2; 3]%Q.
Proof. vm_compute. repeat split; reflexivity. Qed.

(** * Further properties of the visualizer *)

(** ** What a tick leaves alone *)

(** X1.  Whatever the accessor does (answer, answer nonsense, raise), a tick
    never changes the animation and its timer, the bound accessor, the
    window size, the update interval or the open figures. *)
Theorem X1_tick_keeps_control (frame : Z) (w : World) :
  same_control w (fst (animate frame w)).
Proof.
  destruct (animate frame w) as [w' r] eqn:E.
  exact (animate_same_control frame w w' r E).
Qed.

(** X2.  A tick prints nothing, or exactly one line: the message of an
    exception deriving from [Exception] that it caught, in which case it
    returns normally. *)
Theorem X2_tick_prints_only_caught_error (frame : Z) (w : World) :
  let w' := fst (animate frame w) in
  stdout w' = stdout w
  \/ exists e,
       is_Exception e = true
       /\ stdout w' = stdout w ++ ["Error in animation update: " +:+ exn_str e]
       /\ snd (animate frame w) = inr (lines_of (self w')).
Proof.
  intros w'. subst w'. unfold animate.
  erewrite run_bind; [| reflexivity].
  destruct (data_callback (self w)) as [cb|]; [| left; reflexivity].
  unfold bind, try_except.
  destruct (animate_body cb w) as [w1 [e | early]] eqn:E.
  all: pose proof (animate_body_same_console cb _ _ _ E) as Ho.
  all: unfold same_console in Ho.
  - destruct (is_Exception e) eqn:He.
    + right. exists e. cbn. rewrite Ho. repeat split; auto.
    + left. cbn. exact Ho.
  - left. destruct early; cbn; exact Ho.
Qed.

(** ** Which exceptions leave a tick *)












(** X4.  When the accessor itself raises an exception deriving from
    [Exception], the tick costs one frame and nothing else: it returns the
    six lines, [self] is unchanged, the store is as the accessor left it,
    and the one line printed is the message. *)
Theorem X4_accessor_failure_skips_frame (frame : Z) (w : World) (h : Heap)
    (e : exn) :
  accessor_answers w h (inl e) ->
  is_Exception e = true ->
  animate frame w
  = (set_stdout (stdout w ++ ["Error in animation update: " +:+ exn_str e])
       (set_heap h w),
     inr (lines_of (self w))).
Proof.
  intros (cb & Hcb & Hres) He.
  rewrite (run_animate_caught frame w (set_heap h w) cb e Hcb); [reflexivity | | exact He].
  unfold animate_body.
  erewrite run_bind_raise; [reflexivity |].
  unfold call_callback. rewrite Hres. reflexivity.
Qed.

Lemma X4_accessor_failure_skips_frame_witness :
  let e := RuntimeError "sensor offline" in
  let w := bound_world 1000 buffers3 (answer (inl e)) in
  is_Exception e = true
  /\ animate 0 w
     = (set_stdout (stdout w ++ ["Error in animation update: sensor offline"])
          (set_heap (heap w) w),
        inr (lines_of (self w))).
Proof.
  intros e w. split; [reflexivity |].
  refine (X4_accessor_failure_skips_frame 0 w (heap w) e _ eq_refl).
  eexists. split; reflexivity.
Defined.

(** ** What a well-formed window shows *)

(** Both cases of the windowing in one statement. *)
Lemma tick_shown (frame : Z) (w : World) (h : Heap)
    (d : gmap string loc) (L : nat) (ax ay az gx gy gz : list Q) :
  accessor_answers w h (inr (PyDict d)) ->
  sample_window h d L ax ay az gx gy gz ->
  (0 < L)%nat ->
  let W := window_size (self w) in
  let w' := fst (animate frame w) in
  snd (animate frame w) = inr (lines_of (self w'))
  /\ window_tick w w' (shown_x W L)
       (shown W L ax) (shown W L ay) (shown W L az)
       (shown W L gx) (shown W L gy) (shown W L gz) (extent_hi W L).
Proof.
  intros Hacc Hwin HL W w'. subst W w'. unfold shown, shown_x, extent_hi.
  destruct (Z_lt_le_dec (window_size (self w)) (Z.of_nat L)) as [Hbig | Hall].
  - replace (Z.of_nat L >? window_size (self w)) with true by lia.
    destruct (tick_trailing frame w h d L ax ay az gx gy gz Hacc Hwin HL Hbig)
      as (w1 & Hrun & Htick & _).
    rewrite Hrun. split; [reflexivity | exact Htick].
  - replace (Z.of_nat L >? window_size (self w)) with false by lia.
    destruct (tick_all frame w h d L ax ay az gx gy gz Hacc Hwin HL Hall)
      as (w1 & Hrun & Htick & _).
    rewrite Hrun. split; [reflexivity | exact Htick].
Qed.

Lemma upto_length (n : nat) : length (upto n) = n.
Proof. unfold upto. now rewrite length_map, length_seq. Qed.


Lemma shown_length (W : Z) (L : nat) (l : list Q) :
  length l = L -> length (shown W L l) = Nat.min L (Z.to_nat W).
Proof.
  intros <-. unfold shown. destruct (Z.gtb_spec (Z.of_nat (length l)) W).
  - rewrite take_last_length. lia.
  - lia.
Qed.

Lemma shown_x_length (W : Z) (L : nat) :
  length (shown_x W L) = Nat.min L (Z.to_nat W).
Proof.
  unfold shown_x. destruct (Z.gtb_spec (Z.of_nat L) W);
    rewrite upto_length; lia.
Qed.


(** X5.  After a tick on a well-formed window of [L > 0] samples per channel,
    every one of the six series has as many x-coordinates as values, namely
    [min(L, W)] (none for a window size below 1): a series never has more
    points than the window size allows. *)
Theorem X5_series_lengths (frame : Z) (w : World) (h : Heap)
    (d : gmap string loc) (L : nat) (ax ay az gx gy gz : list Q) :
  accessor_answers w h (inr (PyDict d)) ->
  sample_window h d L ax ay az gx gy gz ->
  (0 < L)%nat ->
  all_series (fst (animate frame w))
    (fun s => exists xs ys,
       s = Some (xs, ys)
       /\ length xs = length ys
       /\ length ys = Nat.min L (Z.to_nat (window_size (self w)))).
Proof.
  intros Hacc Hwin HL.
  destruct (tick_shown frame w h d L ax ay az gx gy gz Hacc Hwin HL)
    as (_ & [_ S1 S2 S3 S4 S5 S6 _ _]).
  destruct Hwin.
  unfold all_series. rewrite S1, S2, S3, S4, S5, S6.
  repeat split; eexists _, _; (split; [reflexivity |]);
    rewrite shown_x_length, shown_length by assumption; split; reflexivity.
Qed.

Lemma X5_series_lengths_witness :
  (0 < 3)%nat
  /\ all_series (fst (animate 0 (sample_world 2 buffers3)))
       (fun s => exists xs ys,
          s = Some (xs, ys) /\ length xs = length ys /\ length ys = 2%nat).
Proof.
  assert (HL : (0 < 3)%nat) by lia.
  split; [exact HL |].
  exact (X5_series_lengths 0 (sample_world 2 buffers3) _ _ 3 _ _ _ _ _ _
           (sample_world_answers 2 buffers3) (buffers3_window 2) HL).
Defined.






(** A flat signal is not rescaled: ten samples of value 1 on fresh axes
    keep the extent [[0, 1]], and the value 1 sits on its edge. *)
Example flat_signal_outside :
  let w' := fst (animate 0 (sample_world 1000 (flat_buffers 10))) in
  ylim (ax1 (self w')) = (0, 1)%Q /\ ~ inside (ylim (ax1 (self w'))) 1.
Proof.
  split; [vm_compute; reflexivity |].
  intros [_ H]. vm_compute in H. discriminate.
Qed.



(** ** Redrawing unchanged data *)






(** ** Series and scaling *)

Lemma same_series_refl (w : World) : same_series w w.
Proof. split; [reflexivity | apply store_grows_refl]. Qed.

Lemma same_series_trans (w1 w2 w3 : World) :
  same_series w1 w2 -> same_series w2 w3 -> same_series w1 w3.
Proof.
  intros [L1 G1] [L2 G2]. split.
  - unfold same_lines in *. congruence.
  - eapply store_grows_trans; eassumption.
Qed.

Lemma same_series_alloc (l : list Q) : keeps same_series (alloc l).
Proof.
  intros w w' r E. split; [| exact (store_grows_alloc l w w' r E)].
  injection E as <- _. reflexivity.
Qed.

Lemma same_series_when {A} (m : M A) :
  (forall w, lines_of (self (fst (m w))) = lines_of (self w)
             /\ heap (fst (m w)) = heap w) ->
  keeps same_series m.
Proof.
  intros H w w' r E. destruct (H w) as [Hl Hh]. rewrite E in Hl, Hh.
  split; [exact Hl |]. unfold store_grows. cbn [fst] in Hh. now rewrite Hh.
Qed.

(** Scaling, with or without success, leaves the six series alone. *)
Lemma scaling_keeps_series (s : Selection) (n : Z) :
  keeps same_series
    (autoscale_y s ;;; update_xlim n ;;; @ret (option LineTuple) None).
Proof.
  apply keeps_bind; [apply same_series_trans | | intros _].
  - apply keeps_autoscale_y;
      [ apply same_series_refl | apply same_series_trans
      | apply same_series_alloc | .. ];
      intros; apply same_series_when; intros w; split; reflexivity.
  - apply keeps_bind; [apply same_series_trans | | intros _].
    + apply keeps_update_xlim;
        [ apply same_series_refl | apply same_series_trans | .. ];
        intros; apply same_series_when; intros w; split; reflexivity.
    + apply keeps_ret, same_series_refl.
Qed.

(** Whatever the body of the [try] ends with, what follows it leaves the
    six series alone. *)
Lemma animate_after_body (frame : Z) (w w2 : World) (cb : Callback)
    (r2 : exn + option LineTuple) :
  data_callback (self w) = Some cb ->
  animate_body cb w = (w2, r2) ->
  same_series w2 (fst (animate frame w)).
Proof.
  intros Hcb E. unfold animate. erewrite run_bind; [| reflexivity].
  rewrite Hcb. unfold bind, try_except. rewrite E.
  destruct r2 as [e | early].
  - destruct (is_Exception e); cbn.
    + split; [reflexivity | unfold store_grows; cbn; reflexivity].
    + apply same_series_refl.
  - destruct early; cbn; apply same_series_refl.
Qed.

Lemma series_kept (w w' : World) (p : list Z * list Q) :
  same_series w w' ->
  (series w (line_ax (self w)) = Some p ->
   series w' (line_ax (self w')) = Some p)
  /\ (series w (line_ay (self w)) = Some p ->
      series w' (line_ay (self w')) = Some p)
  /\ (series w (line_az (self w)) = Some p ->
      series w' (line_az (self w')) = Some p)
  /\ (series w (line_gx (self w)) = Some p ->
      series w' (line_gx (self w')) = Some p)
  /\ (series w (line_gy (self w)) = Some p ->
      series w' (line_gy (self w')) = Some p)
  /\ (series w (line_gz (self w)) = Some p ->
      series w' (line_gz (self w')) = Some p).
Proof.
  intros [Hl Hg]. unfold same_lines, lines_of in Hl.
  injection Hl as -> -> -> -> -> ->. unfold store_grows in Hg.
  unfold series.
  repeat split; intros H;
    match type of H with
    | match heap w !! ?r with _ => _ end = _ =>
        destruct (heap w !! r) as [y|] eqn:E; [| discriminate];
        cut (heap w' !! r = Some y);
          [ intros ->; exact H
          | eapply prefix_lookup_Some; eassumption ]
    end.
Qed.

Lemma slice_from_drop (l : list Q) (k : Z) :
  0 <= k -> slice_from l k = drop (Z.to_nat k) l.
Proof.
  intros Hk. unfold slice_from. replace (k <? 0) with false by lia.
  destruct (Z_le_gt_dec k (Z.of_nat (length l))).
  - f_equal. lia.
  - rewrite !drop_ge by lia. reflexivity.
Qed.

(** X10.  The six series are replaced before any scaling, from whatever the
    seven channels hold: with [n] the length of [frame] (not empty), each
    series gets its channel without its first [n - W] samples and the
    x-coordinates 0..W-1 when [n > W], and its whole channel and the
    x-coordinates 0..n-1 otherwise.  This holds for channels of any lengths
    and whether or not the scaling that follows raises. *)
Theorem X10_series_replaced_before_scaling (frame : Z) (w : World) (h : Heap)
    (d : gmap string loc) (fr ax ay az gx gy gz : list Q) :
  accessor_answers w h (inr (PyDict d)) ->
  chan h d "frame" fr -> fr <> [] ->
  chan h d "Ax" ax -> chan h d "Ay" ay -> chan h d "Az" az ->
  chan h d "Gx" gx -> chan h d "Gy" gy -> chan h d "Gz" gz ->
  let n := Z.of_nat (length fr) in
  let W := window_size (self w) in
  let cut l := if n >? W then drop (Z.to_nat (n - W)) l else l in
  let xs := if n >? W then upto (Z.to_nat W) else upto (length fr) in
  let w' := fst (animate frame w) in
  series w' (line_ax (self w')) = Some (xs, cut ax)
  /\ series w' (line_ay (self w')) = Some (xs, cut ay)
  /\ series w' (line_az (self w')) = Some (xs, cut az)
  /\ series w' (line_gx (self w')) = Some (xs, cut gx)
  /\ series w' (line_gy (self w')) = Some (xs, cut gy)
  /\ series w' (line_gz (self w')) = Some (xs, cut gz).
Proof.
  intros (cb & Hcb & Hres) (rf & Hf & Hf') Hne
    (rax & Hax & Hax') (ray & Hay & Hay') (raz & Haz & Haz')
    (rgx & Hgx & Hgx') (rgy & Hgy & Hgy') (rgz & Hgz & Hgz') n W cut xs w'.
  destruct (animate_body cb w) as [w2 r2] eqn:E.
  pose proof (animate_after_body frame _ _ _ _ Hcb E) as Hafter.
  fold w' in Hafter.
  revert E. unfold animate_body.
  erewrite run_bind; [| unfold call_callback; rewrite Hres; reflexivity].
  rewrite (run_redraw_prologue d _ rf fr Hf); [| exact Hf' | exact Hne].
  fold n. subst cut xs.
  destruct (n >? W) eqn:Hbig.
  - erewrite run_bind.
    2:{ apply (run_select_trailing d _ _ rax ray raz rgx rgy rgz
                 ax ay az gx gy gz); eassumption. }
    erewrite run_bind; [| apply run_update_lines].
    intros E. pose proof (scaling_keeps_series _ _ _ _ _ E) as Hscale.
    pose proof (same_series_trans _ _ _ Hscale Hafter) as Hkept.
    cbn [window_size self set_heap] in *. fold W.
    rewrite <- !(slice_from_drop _ (n - W)) by lia.
    repeat split;
      (eapply series_kept; [exact Hkept |]);
      (apply series_at; [reflexivity |]); world_simpl.
    + apply lookup_new0; reflexivity.
    + apply lookup_new; reflexivity.
    + apply lookup_new; reflexivity.
    + apply lookup_new; reflexivity.
    + apply lookup_new; reflexivity.
    + apply lookup_new; reflexivity.
  - erewrite run_bind.
    2:{ apply (run_select_all d _ _ rax ray raz rgx rgy rgz); eassumption. }
    erewrite run_bind; [| apply run_update_lines].
    intros E. pose proof (scaling_keeps_series _ _ _ _ _ E) as Hscale.
    pose proof (same_series_trans _ _ _ Hscale Hafter) as Hkept.
    repeat split;
      (eapply series_kept; [exact Hkept |]);
      (apply series_at; [apply py_range_upto |]); world_simpl; assumption.
Qed.

(** The accelerometer has two samples per channel, the gyroscope none: the
    six series are replaced although [min] then raises. *)
Lemma X10_series_replaced_before_scaling_witness :
  let w := sample_world 1000 buffers_no_gyro in
  let w' := fst (animate 0 w) in
  [0; 1]%Q <> []
  /\ series w' (line_ax (self w')) = Some ([0; 1], [1; 2]%Q)
  /\ series w' (line_ay (self w')) = Some ([0; 1], [4; 5]%Q)
  /\ series w' (line_az (self w')) = Some ([0; 1], [7; 9]%Q)
  /\ series w' (line_gx (self w')) = Some ([0; 1], [])
  /\ series w' (line_gy (self w')) = Some ([0; 1], [])
  /\ series w' (line_gz (self w')) = Some ([0; 1], []).
Proof.
  intros w w'.
  assert (Hne : [0; 1]%Q <> []) by discriminate.
  split; [exact Hne |].
  refine (X10_series_replaced_before_scaling 0 w (heap w) window7
            [0; 1]%Q [1; 2]%Q [4; 5]%Q [7; 9]%Q [] [] []
            (sample_world_answers 1000 buffers_no_gyro) _ Hne _ _ _ _ _ _).
  - exists 0%nat. split; vm_compute; reflexivity.
  - exists 1%nat. split; vm_compute; reflexivity.
  - exists 2%nat. split; vm_compute; reflexivity.
  - exists 3%nat. split; vm_compute; reflexivity.
  - exists 4%nat. split; vm_compute; reflexivity.
  - exists 5%nat. split; vm_compute; reflexivity.
  - exists 6%nat. split; vm_compute; reflexivity.
Defined.

(** ** No half-updated chart *)








(** ** From construction to the first picture *)



